(** * OGF_Table2Folder: a shallow embedding of the ortholog filter

    The development follows [OGF_Table2Folder.py]: the module-level
    argument parser, and the three methods of class [Table2Folder]
    ([MainDir2OFolder], [OFolder2List], [List2Folder]) run in sequence by
    [main].

    Python values that the script handles dynamically are kept in a small
    universe [pyval]; the operations that inspect the run-time type
    ([==], [int], [+], [range], [os.path.join]) are functions on [pyval]
    that raise the exception Python raises.  Text is a list of Unicode
    code points.  Effects (working directory, files, standard streams)
    are threaded through a state-and-exception monad over [world]; unlike
    a state-over-error stack, the state reached when an exception is
    raised is kept, because what was written before a traceback matters. *)

From Stdlib Require Import List ZArith NArith QArith Bool String Ascii DecimalString Lia.
Import ListNotations.

Set Implicit Arguments.
Close Scope Q_scope.
Open Scope Z_scope.

(** ** Text *)

Module Py.

Definition char := N.
Definition pystr := list char.

(** A literal of the script, from a Rocq string of ASCII characters. *)
Definition str (s : string) : pystr := map N_of_ascii (list_ascii_of_string s).

Definition TAB : char := 9%N.
Definition LF : char := 10%N.
Definition CR : char := 13%N.
Definition SLASH : char := 47%N.

Definition char_in (c : char) (l : list char) : bool := existsb (N.eqb c) l.

Definition between (lo hi c : char) : bool := (N.leb lo c && N.leb c hi)%bool.

(** Code points for which [str.isspace] holds; [str.strip()] removes them. *)
Definition is_space (c : char) : bool :=
  (between 9%N 13%N c || between 28%N 32%N c
   || char_in c [133; 160; 5760; 8232; 8233; 8239; 8287; 12288]%N
   || between 8192%N 8202%N c)%bool.

(** Line boundaries of [str.splitlines]. *)
Definition is_linebreak (c : char) : bool :=
  (between 10%N 13%N c || between 28%N 30%N c || char_in c [133; 8232; 8233]%N)%bool.

Fixpoint dropwhile (p : char -> bool) (s : pystr) : pystr :=
  match s with
  | [] => []
  | c :: rest => if p c then dropwhile p rest else s
  end.

Definition lstrip (s : pystr) : pystr := dropwhile is_space s.
Definition rstrip (s : pystr) : pystr := rev (dropwhile is_space (rev s)).
Definition strip (s : pystr) : pystr := rstrip (lstrip s).

(** [s.split(sep)] for a one-character separator: never empty. *)
Fixpoint split (sep : char) (s : pystr) : list pystr :=
  match s with
  | [] => [[]]
  | c :: rest =>
      if N.eqb c sep then [] :: split sep rest
      else match split sep rest with
           | [] => [[c]]
           | field :: fields => (c :: field) :: fields
           end
  end.

(** [s.splitlines()]: boundaries are dropped, [\r\n] counts once, and a
    final boundary opens no further line. *)
Fixpoint splitlines (s : pystr) : list pystr :=
  match s with
  | [] => []
  | c :: rest =>
      if is_linebreak c then
        [] :: (if N.eqb c CR
               then match rest with
                    | d :: rest' => if N.eqb d LF then splitlines rest' else splitlines rest
                    | [] => splitlines rest
                    end
               else splitlines rest)
      else match splitlines rest with
           | [] => [[c]]
           | line :: lines => (c :: line) :: lines
           end
  end.

(** Reading in text mode with the default [newline=None]: [\r\n] and a
    lone [\r] arrive as [\n]. *)
Fixpoint translate_newlines (s : pystr) : pystr :=
  match s with
  | [] => []
  | c :: rest =>
      if N.eqb c CR
      then LF :: match rest with
                 | d :: rest' => if N.eqb d LF then translate_newlines rest'
                                 else translate_newlines rest
                 | [] => translate_newlines rest
                 end
      else c :: translate_newlines rest
  end.

(** Lines of a text with their terminating [\n] kept. *)
Fixpoint keepends (s : pystr) : list pystr :=
  match s with
  | [] => []
  | c :: rest =>
      if N.eqb c LF then [LF] :: keepends rest
      else match keepends rest with
           | [] => [[c]]
           | line :: lines => (c :: line) :: lines
           end
  end.

Definition str_eqb (a b : pystr) : bool :=
  (Nat.eqb (List.length a) (List.length b) && forallb (fun p => N.eqb (fst p) (snd p)) (combine a b))%bool.

(** ** Exceptions and results *)

Inductive type_error :=
| IntArgument          (* int() argument must be a string, a bytes-like object or a real number *)
| ConcatListNonList    (* can only concatenate list (not "str") to list *)
| UnsupportedOperand   (* unsupported operand type(s) for + *)
| NotAnInteger         (* 'float' object cannot be interpreted as an integer *)
| MissingArgument      (* missing required argument 'path' (pos 1) *)
| TooManyArguments     (* takes at most 1 argument *)
| ExpectedPath         (* expected str, bytes or os.PathLike object *)
| WriteArgument.       (* write() argument must be str *)

Inductive exn :=
| TypeError (why : type_error)
| ValueError
| ZeroDivisionError
| IndexError
| EOFError
| FileNotFoundError
| NotADirectoryError
| IsADirectoryError
| FileExistsError
| SameFileError
| SystemExit (code : Z).

Inductive result (A : Type) :=
| Ok (a : A)
| Raise (e : exn).
Arguments Ok {A} a.
Arguments Raise {A} e.

Definition rbind {A B} (r : result A) (k : A -> result B) : result B :=
  match r with
  | Ok a => k a
  | Raise e => Raise e
  end.

(** [list(map(f, l))] for an [f] that may raise: stops at the first
    exception. *)
Fixpoint map_result {A B} (f : A -> result B) (l : list A) : result (list B) :=
  match l with
  | [] => Ok []
  | a :: rest => rbind (f a) (fun b => rbind (map_result f rest) (fun bs => Ok (b :: bs)))
  end.

(** ** Dynamically typed values *)

#[warnings="-register-all"]
Inductive pyval :=
| PNone
| PBool (b : bool)
| PInt (z : Z)
| PFloat (q : Q)
| PStr (s : pystr)
| PList (l : list pyval)
| PBuiltin (name : string).   (* a built-in function object, e.g. [os.getcwd] *)

Definition Z_of_bool (b : bool) : Z := if b then 1 else 0.

(** [a == b].  Numbers compare by value, containers element-wise, and
    values of unrelated types are simply unequal (no exception). *)
Fixpoint py_eq (a b : pyval) : bool :=
  match a, b with
  | PNone, PNone => true
  | PBool x, PBool y => Bool.eqb x y
  | PBool x, PInt y => Z.eqb (Z_of_bool x) y
  | PInt x, PBool y => Z.eqb x (Z_of_bool y)
  | PInt x, PInt y => Z.eqb x y
  | PBool x, PFloat y => Qeq_bool (inject_Z (Z_of_bool x)) y
  | PFloat x, PBool y => Qeq_bool x (inject_Z (Z_of_bool y))
  | PInt x, PFloat y => Qeq_bool (inject_Z x) y
  | PFloat x, PInt y => Qeq_bool x (inject_Z y)
  | PFloat x, PFloat y => Qeq_bool x y
  | PStr x, PStr y => str_eqb x y
  | PList x, PList y =>
      (fix all2 (x y : list pyval) : bool :=
         match x, y with
         | [], [] => true
         | u :: x', v :: y' => (py_eq u v && all2 x' y')%bool
         | _, _ => false
         end) x y
  | PBuiltin n, PBuiltin m => String.eqb n m
  | _, _ => false
  end.

(** [np.count_nonzero] of a Python [bool] (a zero-dimensional array),
    returned as a Python [int], as NumPy does before version 2.3.  With
    a later NumPy the count is a NumPy integer and a division of it by
    zero gives [nan] where [true_div] raises; the two agree whenever the
    divisor is not zero, that is, for every row that keeps a number of
    fields other than one. *)
Definition np_count_nonzero (b : bool) : Z := Z_of_bool b.

(** [a / b] on integers.  The quotient is kept exact; the script only
    compares it with a threshold. *)
Definition true_div (a b : Z) : result Q :=
  if Z.eqb b 0 then Raise ZeroDivisionError else Ok (inject_Z a / inject_Z b)%Q.

Definition is_digit (c : char) : bool := between 48%N 57%N c.

Fixpoint digits_value (acc : Z) (s : pystr) : option Z :=
  match s with
  | [] => Some acc
  | c :: rest =>
      if is_digit c then digits_value (10 * acc + (Z.of_N c - 48)) rest
      else if N.eqb c 95%N (* _ between two digits *)
           then match rest with
                | d :: _ => if is_digit d then digits_value acc rest else None
                | [] => None
                end
           else None
  end.

Definition unsigned_of_str (s : pystr) : option Z :=
  match s with
  | c :: _ => if is_digit c then digits_value 0 s else None
  | [] => None
  end.

(** The white space [int] skips around a number: the white space of C
    inside ASCII, and the Unicode white space outside it. *)
Definition is_int_space (c : char) : bool :=
  (between 9%N 13%N c || N.eqb c 32%N || (N.leb 128%N c && is_space c))%bool.

(** [int(s)] for text: surrounding white space, an optional sign, ASCII
    decimal digits with single underscores between them.  Decimal
    digits outside ASCII and the limit on the number of digits are left
    out; what is proved of the choice of a run is proved for any
    behaviour of [int]. *)
Definition int_of_str (s : pystr) : option Z :=
  match rev (dropwhile is_int_space (rev (dropwhile is_int_space s))) with
  | c :: rest =>
      if N.eqb c 45%N then option_map Z.opp (unsigned_of_str rest)
      else if N.eqb c 43%N then unsigned_of_str rest
      else unsigned_of_str (c :: rest)
  | [] => None
  end.

(** [int(v)]. *)
Definition py_int (v : pyval) : result Z :=
  match v with
  | PBool b => Ok (Z_of_bool b)
  | PInt z => Ok z
  | PFloat q => Ok (Z.quot (Qnum q) (Zpos (Qden q)))
  | PStr s => match int_of_str s with Some z => Ok z | None => Raise ValueError end
  | PNone | PList _ | PBuiltin _ => Raise (TypeError IntArgument)
  end.

(** [a + b]. *)
Definition py_add (a b : pyval) : result pyval :=
  match a, b with
  | PStr x, PStr y => Ok (PStr (x ++ y))
  | PList x, PList y => Ok (PList (x ++ y))
  | PList _, _ => Raise (TypeError ConcatListNonList)
  | PInt x, PInt y => Ok (PInt (x + y))
  | PInt x, PBool y => Ok (PInt (x + Z_of_bool y))
  | PBool x, PInt y => Ok (PInt (Z_of_bool x + y))
  | PBool x, PBool y => Ok (PInt (Z_of_bool x + Z_of_bool y))
  | PFloat x, PFloat y => Ok (PFloat (x + y))
  | PFloat x, PInt y => Ok (PFloat (x + inject_Z y))
  | PInt x, PFloat y => Ok (PFloat (inject_Z x + y))
  | PFloat x, PBool y => Ok (PFloat (x + inject_Z (Z_of_bool y)))
  | PBool x, PFloat y => Ok (PFloat (inject_Z (Z_of_bool x) + y))
  | _, _ => Raise (TypeError UnsupportedOperand)
  end.

(** The arguments of [range] must be integers ([__index__]). *)
Definition py_index (v : pyval) : result Z :=
  match v with
  | PBool b => Ok (Z_of_bool b)
  | PInt z => Ok z
  | _ => Raise (TypeError NotAnInteger)
  end.

(** [str(z)] for an integer. *)
Definition str_of_Z (z : Z) : pystr := str (DecimalString.NilZero.string_of_int (Z.to_int z)).

(** [range(start, stop)], as the list of its members. *)
Definition py_range (start stop : pyval) : result (list Z) :=
  rbind (py_index start) (fun a =>
  rbind (py_index stop) (fun b =>
  Ok (map (fun i => a + Z.of_nat i) (seq 0 (Z.to_nat (b - a)))))).

End Py.

(** ** The operating system

    A file system is a finite table from absolute paths to files and
    directories.  Paths are compared literally (no [.], [..] or doubled
    separators are normalised), which is all the script relies on: every
    path it uses is built with [os.path.join] from the working
    directory.  There are no symbolic links: a path names the file or
    directory itself, and the working directory is the path that was
    entered. *)

Module OS.
Import Py.

Inductive node :=
| NFile (content : pystr)
| NDir.

Record world := World {
  fs : list (pystr * node);
  cwd : pystr;
  stdin : list pystr;      (* the lines still to be typed *)
  stdout : list pystr      (* what was printed, oldest first *)
}.

(** State and exceptions: the world reached is kept when a call raises. *)
Definition M (A : Type) := world -> world * result A.

Definition ret {A} (a : A) : M A := fun w => (w, Ok a).
Definition raise {A} (e : exn) : M A := fun w => (w, Raise e).
Definition lift {A} (r : result A) : M A := fun w => (w, r).
Definition bind {A B} (m : M A) (k : A -> M B) : M B :=
  fun w => match m w with
           | (w', Ok a) => k a w'
           | (w', Raise e) => (w', Raise e)
           end.

Declare Scope py_scope.
Delimit Scope py_scope with py.
Notation "x <- m ;; k" := (bind m (fun x => k))
  (at level 61, m at next level, right associativity) : py_scope.
Notation "m ;; k" := (bind m (fun _ => k))
  (at level 61, right associativity) : py_scope.
Open Scope py_scope.

(** *** [os.path] *)

Definition fspath (v : pyval) : result pystr :=
  match v with
  | PStr s => Ok s
  | _ => Raise (TypeError ExpectedPath)
  end.

Definition startswith_sep (s : pystr) : bool :=
  match s with
  | c :: _ => N.eqb c SLASH
  | [] => false
  end.

Definition endswith_sep (s : pystr) : bool := startswith_sep (rev s).

Definition join2 (path b : pystr) : pystr :=
  if startswith_sep b then b
  else if (match path with [] => true | _ => endswith_sep path end)
       then path ++ b
       else path ++ SLASH :: b.

(** [os.path.join] of a first component and further ones: every
    component must be text. *)
Definition os_path_join (a : pyval) (p : list pyval) : result pystr :=
  rbind (fspath a) (fun a' =>
  rbind (map_result fspath p) (fun p' =>
  Ok (fold_left join2 p' a'))).

(** [os.path.dirname]: up to the last separator, without trailing
    separators unless nothing else is left. *)
Definition os_path_dirname (p : pystr) : pystr :=
  let head := rev (dropwhile (fun c => negb (N.eqb c SLASH)) (rev p)) in
  if forallb (N.eqb SLASH) head then head
  else rev (dropwhile (N.eqb SLASH) (rev head)).

(** [os.path.basename]: after the last separator. *)
Definition os_path_basename (p : pystr) : pystr :=
  last (split SLASH p) [].

(** *** Files and directories *)

Definition abspath (w : world) (p : pystr) : pystr := join2 (cwd w) p.

Fixpoint lookup (table : list (pystr * node)) (p : pystr) : option node :=
  match table with
  | [] => None
  | (k, n) :: rest => if str_eqb k p then Some n else lookup rest p
  end.

Fixpoint update (table : list (pystr * node)) (p : pystr) (n : node) : list (pystr * node) :=
  match table with
  | [] => [(p, n)]
  | (k, m) :: rest => if str_eqb k p then (k, n) :: rest else (k, m) :: update rest p n
  end.

Definition set_fs (w : world) (t : list (pystr * node)) : world :=
  World t (cwd w) (stdin w) (stdout w).

Fixpoint strip_prefix (p s : pystr) : option pystr :=
  match p, s with
  | [], _ => Some s
  | a :: p', b :: s' => if N.eqb a b then strip_prefix p' s' else None
  | _ :: _, [] => None
  end.

(** The name under which path [k] appears in directory [d], if it is
    directly inside it. *)
Definition child_name (d k : pystr) : option pystr :=
  match strip_prefix (if endswith_sep d then d else d ++ [SLASH]) k with
  | Some (c :: r) => if char_in SLASH (c :: r) then None else Some (c :: r)
  | _ => None
  end.

Fixpoint children (d : pystr) (table : list (pystr * node)) : list pystr :=
  match table with
  | [] => []
  | (k, _) :: rest =>
      match child_name d k with
      | Some name => name :: children d rest
      | None => children d rest
      end
  end.

Definition os_getcwd : M pystr := fun w => (w, Ok (cwd w)).

(** [os.listdir(path)]; [None] lists the working directory. *)
Definition os_listdir (path : pyval) : M (list pystr) :=
  fun w =>
    match path with
    | PNone | PStr _ =>
        let d := match path with PStr p => abspath w p | _ => cwd w end in
        match lookup (fs w) d with
        | Some NDir => (w, Ok (children d (fs w)))
        | Some (NFile _) => (w, Raise NotADirectoryError)
        | None => (w, Raise FileNotFoundError)
        end
    | _ => (w, Raise (TypeError ExpectedPath))
    end.

(** [os.chdir], applied to the list of its actual arguments: exactly
    one is required, a path. *)
Definition os_chdir (args : list pyval) : M pyval :=
  fun w =>
    match args with
    | [] => (w, Raise (TypeError MissingArgument))
    | [PStr p] =>
        match lookup (fs w) (abspath w p) with
        | Some NDir => (World (fs w) (abspath w p) (stdin w) (stdout w), Ok PNone)
        | Some (NFile _) => (w, Raise NotADirectoryError)
        | None => (w, Raise FileNotFoundError)
        end
    | [_] => (w, Raise (TypeError ExpectedPath))
    | _ :: _ :: _ => (w, Raise (TypeError TooManyArguments))
    end.

Definition os_path_exists (p : pystr) : M bool :=
  fun w => (w, Ok (match lookup (fs w) (abspath w p) with Some _ => true | None => false end)).

Definition is_dir (t : list (pystr * node)) (p : pystr) : bool :=
  match lookup t p with Some NDir => true | _ => false end.

Definition exists_in (t : list (pystr * node)) (p : pystr) : bool :=
  match lookup t p with Some _ => true | None => false end.

(** Text of the file [name], as [read()] returns it in text mode. *)
Definition read_text (name : pystr) : M pystr :=
  fun w =>
    match lookup (fs w) (abspath w name) with
    | Some (NFile c) => (w, Ok (translate_newlines c))
    | Some NDir => (w, Raise IsADirectoryError)
    | None => (w, Raise FileNotFoundError)
    end.

(** [open(name, "r")] followed by [readlines()]. *)
Definition open_readlines (name : pystr) : M (list pystr) :=
  text <- read_text name ;; ret (keepends text).

(** [open(name, "r")] followed by [read().splitlines()]. *)
Definition open_read_splitlines (name : pystr) : M (list pystr) :=
  text <- read_text name ;; ret (splitlines text).

(** [open(name, "w")]: the file is created or emptied at once; the
    handle is its absolute path. *)
Definition open_w (name : pystr) : M pystr :=
  fun w =>
    let p := abspath w name in
    match lookup (fs w) p with
    | Some NDir => (w, Raise IsADirectoryError)
    | Some (NFile _) => (set_fs w (update (fs w) p (NFile [])), Ok p)
    | None =>
        match lookup (fs w) (os_path_dirname p) with
        | Some NDir => (set_fs w (update (fs w) p (NFile [])), Ok p)
        | Some (NFile _) => (w, Raise NotADirectoryError)
        | None => (w, Raise FileNotFoundError)
        end
    end.

Definition content_of (t : list (pystr * node)) (p : pystr) : pystr :=
  match lookup t p with Some (NFile c) => c | _ => [] end.

(** [file.write(text)]: only text can be written; it goes after what
    the file holds. *)
Definition file_write (handle : pystr) (text : pyval) : M unit :=
  fun w =>
    match text with
    | PStr s => (set_fs w (update (fs w) handle (NFile (content_of (fs w) handle ++ s))), Ok tt)
    | _ => (w, Raise (TypeError WriteArgument))
    end.

Definition mkdir (p : pystr) (t : list (pystr * node)) : list (pystr * node) * result unit :=
  if exists_in t p then (t, Raise FileExistsError)
  else match lookup t (os_path_dirname p) with
       | Some NDir => (update t p NDir, Ok tt)
       | Some (NFile _) => (t, Raise NotADirectoryError)
       | None => (t, Raise FileNotFoundError)
       end.

(** [os.makedirs]: missing parents first, then the leaf.  The parent
    path is strictly shorter, so the length of the path bounds the
    recursion. *)
Fixpoint makedirs_from (fuel : nat) (p : pystr) (t : list (pystr * node))
  : list (pystr * node) * result unit :=
  match fuel with
  | O => mkdir p t
  | S fuel' =>
      let head := os_path_dirname p in
      let tail := os_path_basename p in
      if (match head with [] => false | _ => true end
          && match tail with [] => false | _ => true end
          && negb (exists_in t head))%bool
      then match makedirs_from fuel' head t with
           | (t', Ok _) => mkdir p t'
           | (t', Raise FileExistsError) => mkdir p t'
           | (t', Raise e) => (t', Raise e)
           end
      else mkdir p t
  end.

Definition os_makedirs (p : pystr) : M unit :=
  fun w =>
    let (t, r) := makedirs_from (List.length (abspath w p)) (abspath w p) (fs w) in
    (set_fs w t, r).

(** [shutil.copy2(src, dst)]: into [dst] when it is a directory. *)
Definition shutil_copy2 (src dst : pystr) : M unit :=
  fun w =>
    let s := abspath w src in
    let d0 := abspath w dst in
    let d := if is_dir (fs w) d0 then join2 d0 (os_path_basename s) else d0 in
    match lookup (fs w) s with
    | None => (w, Raise FileNotFoundError)
    | Some NDir => (w, Raise IsADirectoryError)
    | Some (NFile c) =>
        if str_eqb s d then (w, Raise SameFileError)
        else if is_dir (fs w) d then (w, Raise IsADirectoryError)
        else match lookup (fs w) (os_path_dirname d) with
             | Some NDir => (set_fs w (update (fs w) d (NFile c)), Ok tt)
             | Some (NFile _) => (w, Raise NotADirectoryError)
             | None => (w, Raise FileNotFoundError)
             end
    end.

(** *** Standard streams *)

Definition print (s : pystr) : M unit :=
  fun w => (World (fs w) (cwd w) (stdin w) (stdout w ++ [s ++ [LF]]), Ok tt).

(** [input(prompt)]: the prompt is shown, then a line is taken. *)
Definition input (prompt : pystr) : M pystr :=
  fun w =>
    match stdin w with
    | [] => (World (fs w) (cwd w) [] (stdout w ++ [prompt]), Raise EOFError)
    | line :: rest => (World (fs w) (cwd w) rest (stdout w ++ [prompt]), Ok line)
    end.

End OS.

(** ** The script *)

Import Py OS.

(** An instance of class [Table2Folder]: the four attributes set by
    [__init__], with the types the argument parser gives them.  The
    threshold [missing] is a finite float, kept as the rational it
    denotes; the script only compares it. *)
Record Table2Folder := {
  of_dir : pystr;
  out_dir : pystr;
  missing : Q;
  copies : Z
}.

(** *** [MainDir2OFolder] *)

(** The [enumerate] loop that lists the runs. *)
Fixpoint print_runs (index : Z) (runs : list pystr) : M unit :=
  match runs with
  | [] => ret tt
  | run :: rest =>
      print (str_of_Z (index + 1) ++ str ": " ++ run) ;;
      print_runs (index + 1) rest
  end.

(** The [while True] loop, for a given built-in [int].  Each turn
    takes one line of input, so the lines available when the loop
    starts bound it; when they run out [input] raises [EOFError], which
    the loop does not catch. *)
Fixpoint choose_with (int : pyval -> result Z) (lines : list pystr) (runs : list pystr)
  : M pystr :=
  match lines with
  | [] => input (str "Select the desired run by typing the corresponding number:")
  | _ :: rest =>
      line <- input (str "Select the desired run by typing the corresponding number:") ;;
      match int (PStr line) with
      | Ok choice =>
          if ((1 <=? choice) && (choice <=? Z.of_nat (List.length runs)))%bool
          then print (str "Found OrthoFinder run folder. Retrieving orthologs...") ;;
               ret (nth (Z.to_nat (choice - 1)) runs [])
          else print (str "Out of bounds. Please enter a number between 1 and "
                        ++ str_of_Z (Z.of_nat (List.length runs)) ++ str ".") ;;
               choose_with int rest runs
      | Raise ValueError =>
          print (str "Invalid input. Please enter a number.") ;;
          choose_with int rest runs
      | Raise e => raise e
      end
  end.

Definition choose_run_with (int : pyval -> result Z) (runs : list pystr) : M pystr :=
  fun w => choose_with int (stdin w) runs w.

Definition choose_run_from (lines : list pystr) (runs : list pystr) : M pystr :=
  choose_with py_int lines runs.

Definition choose_run (runs : list pystr) : M pystr :=
  choose_run_with py_int runs.

Definition MainDir2OFolder (self : Table2Folder) : M unit :=
  names <- os_listdir (PStr (of_dir self)) ;;
  (if existsb (str_eqb (str "OrthoFinder")) names
   then path <- lift (os_path_join (PStr (of_dir self)) [PStr (str "OrthoFinder")]) ;;
        os_chdir [PStr path]
   else raise FileNotFoundError) ;;
  of_folder <- os_chdir [] ;;
  runs <- os_listdir of_folder ;;
  match runs with
  | [_] =>
      path <- lift (os_path_join of_folder [PList (map PStr runs)]) ;;
      os_chdir [PStr path] ;;
      print (str "Found OrthoFinder run folder. Retrieving orthologs...")
  | [] => raise FileNotFoundError
  | _ :: _ :: _ =>
      print (str "Please choose the desired OrthoFinder run:") ;;
      print_runs 0 runs ;;
      selected_run <- choose_run runs ;;
      path <- lift (os_path_join of_folder [PStr selected_run]) ;;
      os_chdir [PStr path] ;;
      ret tt
  end.

(** *** [OFolder2List] *)

(** One table line split into fields, the last field dropped. *)
Definition columns_of (line : pystr) : list pystr :=
  removelast (split TAB (strip line)).

(** A list of strings as a Python value. *)
Definition row_val (entries : list pystr) : pyval := PList (map PStr entries).

(** The only object ever appended to [final_list] is the list
    [missing_list] itself, not a copy of it or one of its rows. *)
Inductive objref := ref_missing_list.

(** The three lists the loops grow. *)
Record lists := Lists {
  line_list : list (list pystr);
  missing_list : list (list pystr);
  final_list : list objref
}.

(** [np.count_nonzero(entries == 0) / (len(entries) - 1)] *)
Definition proportion (entries : list pystr) : result Q :=
  true_div (np_count_nonzero (py_eq (row_val entries) (PInt 0)))
           (Z.of_nat (List.length entries) - 1).

(** [for entries in line_list:] over the rows still to be visited. *)
Fixpoint apply_missing (missing : Q) (todo : list (list pystr)) (missing_list : list (list pystr))
  : list (list pystr) * result unit :=
  match todo with
  | [] => (missing_list, Ok tt)
  | entries :: rest =>
      match proportion entries with
      | Raise e => (missing_list, Raise e)
      | Ok p =>
          apply_missing missing rest
            (if Qle_bool p missing then missing_list ++ [entries] else missing_list)
      end
  end.

(** [for entries in missing_list:] over the rows still to be visited;
    the body reads the whole [missing_list], never [entries]. *)
Fixpoint apply_copies (copies : Z) (missing_list : list (list pystr))
    (todo : list (list pystr)) (final_list : list objref)
  : list objref * result unit :=
  match todo with
  | [] => (final_list, Ok tt)
  | _ :: rest =>
      match map_result py_int (map row_val (tl missing_list)) with
      | Raise e => (final_list, Raise e)
      | Ok integers =>
          apply_copies copies missing_list rest
            (if forallb (fun x => x <=? copies) integers
             then final_list ++ [ref_missing_list] else final_list)
      end
  end.

(** [for line in ortologs[1:]:] over the lines still to be read. *)
Fixpoint scan_lines (missing : Q) (copies : Z) (lines : list pystr) (st : lists)
  : lists * result unit :=
  match lines with
  | [] => (st, Ok tt)
  | line :: rest =>
      let columns := columns_of line in
      let ll := line_list st ++ [columns] in
      match apply_missing missing ll (missing_list st) with
      | (ml, Raise e) => (Lists ll ml (final_list st), Raise e)
      | (ml, Ok _) =>
          match apply_copies copies ml ml (final_list st) with
          | (fl, Raise e) => (Lists ll ml fl, Raise e)
          | (fl, Ok _) => scan_lines missing copies rest (Lists ll ml fl)
          end
      end
  end.

(** [entry[0]] for an entry of [final_list]: the first row of
    [missing_list] as it is when the loops are over. *)
Definition first_of (st : lists) (entry : objref) : result pyval :=
  match entry with
  | ref_missing_list =>
      match missing_list st with
      | first :: _ => Ok (row_val first)
      | [] => Raise IndexError
      end
  end.

(** [[entry[0] for entry in final_list]] *)
Definition first_elements (st : lists) : result (list pyval) :=
  map_result (first_of st) (final_list st).

(** The body of [with open("FilteredOrthologs.txt", "w")]. *)
Fixpoint write_elements (file : pystr) (elements : list pyval) : M unit :=
  match elements with
  | [] => ret tt
  | element :: rest =>
      text <- lift (py_add element (PStr [LF])) ;;
      file_write file text ;;
      write_elements file rest
  end.

(** Lines 116 to 126: enter [Orthogroups] and read the table. *)
Definition read_table : M (list pystr) :=
  run_folder <- os_getcwd ;;
  path <- lift (os_path_join (PStr run_folder) [PStr (str "Orthogroups")]) ;;
  os_chdir [PStr path] ;;
  let tsv_file_name := str "Orthogroups.GeneCount.tsv" in
  found <- os_path_exists tsv_file_name ;;
  (if negb found then raise FileNotFoundError else ret tt) ;;
  open_readlines tsv_file_name.

(** Lines 129 to 158: the loops, then [first_elements]. *)
Definition select_rows (self : Table2Folder) (ortologs : list pystr) : result (list pyval) :=
  let (st, loops) := scan_lines (missing self) (copies self) (tl ortologs) (Lists [] [] []) in
  rbind loops (fun _ => first_elements st).

(** Lines 161 to 164: one directory up, open the list for writing. *)
Definition open_list_file : M pystr :=
  here <- os_getcwd ;;
  os_chdir [PStr (os_path_dirname here)] ;;
  open_w (str "FilteredOrthologs.txt").

Definition OFolder2List (self : Table2Folder) : M unit :=
  ortologs <- read_table ;;
  elements <- lift (select_rows self ortologs) ;;
  file <- open_list_file ;;
  write_elements file elements ;;
  print (str "Orthologs succesfully retrieved. Copying to a new folder...").

(** *** [List2Folder] *)

(** [for label in og_names:] with the running count of copied files. *)
Fixpoint copy_orthologs (current_directory : pyval) (filtered_ogs : pystr)
    (og_names : list pystr) (og_count : Z) : M Z :=
  match og_names with
  | [] => ret og_count
  | label :: rest =>
      file_path <- lift (os_path_join current_directory
                           [PStr (str "Orthogroup_Sequences"); PStr label; PStr (str ".fa")]) ;;
      found <- os_path_exists file_path ;;
      if found
      then destination <- lift (os_path_join (PStr filtered_ogs) [PStr label; PStr (str ".fa")]) ;;
           shutil_copy2 file_path destination ;;
           copy_orthologs current_directory filtered_ogs rest (og_count + 1)
      else print (str "File " ++ label ++ str ".fa not found.") ;;
           copy_orthologs current_directory filtered_ogs rest og_count
  end.

(** Everything after [current_directory] is bound. *)
Definition materialize (current_directory : pyval) : M unit :=
  filtered_ogs <- lift (os_path_join current_directory [PStr (str "Filtered_Orthologs")]) ;;
  found <- os_path_exists filtered_ogs ;;
  (if negb found then os_makedirs filtered_ogs else ret tt) ;;
  og_names <- open_read_splitlines (str "FilteredOrthologs.txt") ;;
  og_count <- copy_orthologs current_directory filtered_ogs og_names 0 ;;
  print (str_of_Z og_count
           ++ str " orthologs were identified and successfully copied to the 'Filtered_Orthologs' folder.").

(** [current_directory = os.getcwd]: the function itself, not its
    result. *)
Definition List2Folder (self : Table2Folder) : M unit :=
  materialize (PBuiltin "getcwd").

(** *** Module level: the argument parser and [main] *)

Inductive argtype := type_str | type_float | type_int.

Record argument := {
  flags : list pystr;
  dest : string;
  required : bool;
  choices : option (list Z);
  type : argtype
}.

Record namespace := {
  input_orthofinder_folder : pystr;
  output_orthologs_folder : pystr;
  missing_taxa : Q;
  maximum_copies : Z
}.

Definition input_argument : argument :=
  {| flags := [str "--input"; str "-i"]; dest := "input_orthofinder_folder";
     required := true; choices := None; type := type_str |}.

Definition output_argument : argument :=
  {| flags := [str "--output"; str "-o"]; dest := "output_orthologs_folder";
     required := true; choices := None; type := type_str |}.

Definition missing_argument (members : list Z) : argument :=
  {| flags := [str "--missing"; str "-t"]; dest := "missing_taxa";
     required := true; choices := Some members; type := type_float |}.

Definition copies_argument : argument :=
  {| flags := [str "--copies"; str "-c"]; dest := "maximum_copies";
     required := true; choices := None; type := type_int |}.

(** The four [ogf.add_argument] calls, in order.  The arguments of a
    call are evaluated before the call is made, so [range(0.1, 1.0)]
    is evaluated before the third one. *)
Definition ogf : result (list argument) :=
  let parser := [] in
  let parser := parser ++ [input_argument] in
  let parser := parser ++ [output_argument] in
  rbind (py_range (PFloat (1 # 10)) (PFloat 1)) (fun members =>
  let parser := parser ++ [missing_argument members] in
  let parser := parser ++ [copies_argument] in
  Ok parser).

Definition main (args : namespace) : M unit :=
  let table2folder := {| of_dir := input_orthofinder_folder args;
                         out_dir := output_orthologs_folder args;
                         missing := missing_taxa args;
                         copies := maximum_copies args |} in
  MainDir2OFolder table2folder ;;
  OFolder2List table2folder ;;
  List2Folder table2folder.

Section Script.

(** [argparse]'s [parse_args] is library code: any behaviour is
    allowed for it. *)
Variable parse_args : list argument -> list pystr -> M namespace.

(** Lines 44 to 56. *)
Definition args (argv : list pystr) : M namespace :=
  parser <- lift ogf ;;
  parse_args parser argv.

(** The file run as a program. *)
Definition script (argv : list pystr) : M unit :=
  parsed <- args argv ;;
  main parsed.

End Script.

(** ** The behaviour the specification describes

    These definitions follow the words of the specification, not the
    script; they are what the script is compared with. *)

Module Spec.

Record row := { group_id : pystr; counts : list Z }.

Definition missing_count (r : row) : Z :=
  Z.of_nat (List.length (filter (Z.eqb 0) (counts r))).

(** [missing_count / T] *)
Definition missing_fraction (r : row) : Q :=
  (inject_Z (missing_count r) / inject_Z (Z.of_nat (List.length (counts r))))%Q.

Definition max_copy_in_row (r : row) : Z := fold_right Z.max 0 (counts r).

Definition qualifies (max_missing_fraction : Q) (max_copies : Z) (r : row) : bool :=
  (Qle_bool (missing_fraction r) max_missing_fraction && (max_copy_in_row r <=? max_copies))%bool.

Definition select (max_missing_fraction : Q) (max_copies : Z) (table : list row) : list pystr :=
  map group_id (filter (qualifies max_missing_fraction max_copies) table).

(** The intermediate artifact: one identifier per line. *)
Definition list_file (ids : list pystr) : pystr :=
  flat_map (fun id => id ++ [LF]) ids.

(** A table line in the input format: fields joined by tabs and ended
    by a newline. *)
Fixpoint tsv_fields (fields : list pystr) : pystr :=
  match fields with
  | [] => []
  | [f] => f
  | f :: rest => f ++ TAB :: tsv_fields rest
  end.

Definition tsv_line (fields : list pystr) : pystr := tsv_fields fields ++ [LF].

Definition data_line (r : row) (total : Z) : pystr :=
  tsv_line (group_id r :: map str_of_Z (counts r) ++ [str_of_Z total]).

End Spec.

(** ** Concrete tables and worlds *)

Module Scenario.

Definition header : pystr :=
  Spec.tsv_line (map str ["Orthogroup"; "Sp1"; "Sp2"; "Sp3"; "Total"]%string).

Definition OG1 : Spec.row := {| Spec.group_id := str "OG1"; Spec.counts := [2; 0; 1] |}.
Definition OG2 : Spec.row := {| Spec.group_id := str "OG2"; Spec.counts := [1; 1; 1] |}.

(** Header and the row [OG1 2 0 1 3]. *)
Definition table_A : pystr := header ++ Spec.data_line OG1 3.

(** Two data rows. *)
Definition table_AB : pystr := header ++ Spec.data_line OG1 3 ++ Spec.data_line OG2 3.

(** No data row. *)
Definition table_empty : pystr := header.

Definition root : pystr := str "/data".
Definition run_dir : pystr := str "/data/OrthoFinder/Results_Jan01".

(** The tree an OrthoFinder run leaves under [/data], with one run. *)
Definition tree (table : pystr) : list (pystr * node) :=
  [ (str "/", NDir);
    (str "/data", NDir);
    (str "/data/OrthoFinder", NDir);
    (str "/data/OrthoFinder/Results_Jan01", NDir);
    (str "/data/OrthoFinder/Results_Jan01/Orthogroups", NDir);
    (str "/data/OrthoFinder/Results_Jan01/Orthogroups/Orthogroups.GeneCount.tsv", NFile table);
    (str "/data/OrthoFinder/Results_Jan01/Orthogroup_Sequences", NDir);
    (str "/data/OrthoFinder/Results_Jan01/Orthogroup_Sequences/OG1.fa", NFile (str ">Sp1|g1")) ].

(** Started from [/], before the Locator. *)
Definition at_start (table : pystr) : world := World (tree table) (str "/") [] [].

(** Standing in the run directory, where the Selector starts. *)
Definition in_run (table : pystr) : world := World (tree table) run_dir [] [].

Definition job (max_missing_fraction : Q) (max_copies : Z) : Table2Folder :=
  {| of_dir := root; out_dir := str "/out";
     missing := max_missing_fraction; copies := max_copies |}.

Definition list_path : pystr := str "/data/OrthoFinder/Results_Jan01/FilteredOrthologs.txt".

(** A row absent from every taxon, as in Scenario C. *)
Definition absent : Spec.row := {| Spec.group_id := str "OG2"; Spec.counts := [0; 0; 0] |}.

(** The rows of [OG1 2 0 1 3] and [OG2 0 0 0 0] as the Selector holds
    them. *)
Definition rows_A_C : list (list pystr) :=
  [columns_of (Spec.data_line OG1 3); columns_of (Spec.data_line absent 0)].


(** [/data] without an [OrthoFinder] folder. *)
Definition no_folder : world :=
  World [(str "/", NDir); (str "/data", NDir)] (str "/") [] [].

(** [/data/OrthoFinder] exists and holds no run. *)
Definition no_runs : world :=
  World [(str "/", NDir); (str "/data", NDir); (str "/data/OrthoFinder", NDir)] (str "/") [] [].

(** In the run directory, with a list file naming [ids]. *)
Definition with_list (ids : list pystr) : world :=
  World (tree table_empty ++ [(list_path, NFile (Spec.list_file ids))]) run_dir [] [].

(** In [/data/OrthoFinder], with [lines] waiting on the standard
    input. *)
Definition typing (lines : list pystr) : world :=
  World (tree table_empty) (str "/data/OrthoFinder") lines [].

Definition parsed (max_missing_fraction : Q) (max_copies : Z) : namespace :=
  {| input_orthofinder_folder := root; output_orthologs_folder := str "/out";
     missing_taxa := max_missing_fraction; maximum_copies := max_copies |}.

End Scenario.

(** ** Predicates used in the statements *)

(** Whatever [first_elements] yields is a list of whole rows. *)
Definition is_row (v : pyval) : Prop := exists entries, v = row_val entries.

(** Computations that leave every file and directory as it is. *)
Definition keeps_files {A} (m : M A) : Prop := forall w, fs (fst (m w)) = fs w.

(** The list file, named from the working directory, exists and is
    empty. *)
Definition list_file_empty (w : world) : Prop :=
  lookup (fs w) (abspath w (str "FilteredOrthologs.txt")) = Some (NFile []).

(** A text that is not empty and neither starts nor ends with white
    space: [strip] leaves it as it is. *)
Definition trimmed (s : pystr) : Prop :=
  match s, rev s with
  | c :: _, d :: _ => is_space c = false /\ is_space d = false
  | _, _ => False
  end.

(** A field that holds no tab. *)
Definition no_tab (field : pystr) : Prop := char_in TAB field = false.

(** A line typed at the prompt that ends the choice of a run, for a
    given built-in [int]: an integer between 1 and the number of runs. *)
Definition acceptable (int : pyval -> result Z) (runs : list pystr) (line : pystr) : Prop :=
  exists choice,
    int (PStr line) = Ok choice /\ 1 <= choice <= Z.of_nat (List.length runs).


(** A proportion was computed and it is 0. *)
Definition is_zero_proportion (r : result Q) : bool :=
  match r with
  | Ok p => Qeq_bool p 0
  | Raise _ => false
  end.

(** ** Properties *)

(** *** The monad *)

Lemma bind_ok {A B} (m : M A) (k : A -> M B) w w' a :
  m w = (w', Ok a) -> bind m k w = k a w'.
Proof. intros H. unfold bind. rewrite H. reflexivity. Qed.

Lemma bind_raise {A B} (m : M A) (k : A -> M B) w w' e :
  m w = (w', Raise e) -> bind m k w = (w', Raise e).
Proof. intros H. unfold bind. rewrite H. reflexivity. Qed.

(** *** The missing-taxa test *)

Lemma row_never_equals_zero entries : py_eq (row_val entries) (PInt 0) = false.
Proof. reflexivity. Qed.

Lemma zero_quotient (d : Z) : (inject_Z 0 / inject_Z d == 0)%Q.
Proof. unfold Qdiv. apply Qmult_0_l. Qed.

Lemma proportion_value entries p : proportion entries = Ok p -> (p == 0)%Q.
Proof.
  unfold proportion, true_div. rewrite row_never_equals_zero.
  destruct (Z.eqb _ 0); [discriminate|].
  intros H. injection H as <-. apply zero_quotient.
Qed.

Lemma proportion_defined entries :
  List.length entries <> 1%nat -> exists p, proportion entries = Ok p.
Proof.
  intros Hlen. unfold proportion, true_div.
  destruct (Z.eqb_spec (Z.of_nat (List.length entries) - 1) 0) as [E|E].
  - exfalso. apply Hlen. lia.
  - eexists. reflexivity.
Qed.

Lemma proportion_undefined entries :
  List.length entries = 1%nat -> proportion entries = Raise ZeroDivisionError.
Proof. intros Hlen. unfold proportion, true_div. rewrite Hlen. reflexivity. Qed.

Lemma zero_passes p threshold : (p == 0)%Q -> (0 <= threshold)%Q -> Qle_bool p threshold = true.
Proof. intros Hp Ht. apply Qle_bool_iff. rewrite Hp. exact Ht. Qed.

Lemma apply_missing_keeps_all threshold todo :
  Forall (fun entries => List.length entries <> 1%nat) todo ->
  (0 <= threshold)%Q ->
  forall kept, apply_missing threshold todo kept = (kept ++ todo, Ok tt).
Proof.
  induction 1 as [|entries rest Hlen _ IH]; intros Ht kept; simpl.
  - now rewrite app_nil_r.
  - destruct (proportion_defined _ Hlen) as [p Hp]. rewrite Hp.
    rewrite (zero_passes (proportion_value _ Hp) Ht).
    rewrite IH by assumption. now rewrite <- app_assoc.
Qed.

(** C4, as amended.  For every data row that keeps a number of fields
    other than one (a row with at least one taxon column) the
    missing-taxa proportion computed by the Selector equals 0: the row
    is a list of strings and [entries == 0] compares that list with 0,
    which is never true.  Hence, with a threshold that is not negative,
    the missing-taxa test excludes none of these rows: the first inner
    loop keeps every row it visits. *)
Theorem missing_proportion_is_zero (threshold : Q) (rows kept : list (list pystr)) :
  Forall (fun entries => List.length entries <> 1%nat) rows ->
  (0 <= threshold)%Q ->
  (forall entries, py_eq (row_val entries) (PInt 0) = false)
  /\ (forall entries, In entries rows ->
        exists p, proportion entries = Ok p /\ (p == 0)%Q /\ Qle_bool p threshold = true)
  /\ apply_missing threshold rows kept = (kept ++ rows, Ok tt).
Proof.
  intros Hrows Ht. repeat split.
  - intros entries Hin.
    rewrite Forall_forall in Hrows.
    destruct (proportion_defined _ (Hrows _ Hin)) as [p Hp].
    exists p. pose proof (proportion_value _ Hp) as Hz.
    auto using zero_passes.
  - now apply apply_missing_keeps_all.
Qed.

Lemma missing_proportion_is_zero_witness :
  apply_missing (9 # 10) Scenario.rows_A_C [] = (Scenario.rows_A_C, Ok tt).
Proof.
  refine (proj2 (proj2
            (missing_proportion_is_zero (threshold := 9 # 10) (rows := Scenario.rows_A_C) [] _ _))).
  - repeat constructor; vm_compute; discriminate.
  - vm_compute. discriminate.
Defined.

(** C4, as stated, fails: the data line [OG1 5] keeps the single field
    [OG1]; the divisor [len(entries) - 1] is then 0, no proportion
    equal to 0 is computed for the row, and at threshold 0.5 the first
    inner loop does not keep it. *)
Lemma one_field_row_has_no_zero_proportion :
  columns_of (Spec.tsv_line [str "OG1"; str "5"]) = [str "OG1"]
  /\ is_zero_proportion (proportion [str "OG1"]) = false
  /\ fst (apply_missing (1 # 2) [[str "OG1"]] []) = [].
Proof. repeat split. Qed.

(** *** The loops of the Selector *)

Lemma bind_lift {A B} (r : result A) (k : A -> M B) w :
  bind (lift r) k w = match r with Ok a => k a w | Raise e => (w, Raise e) end.
Proof. unfold bind, lift. destruct r; reflexivity. Qed.

Lemma int_of_row_raises entries rest :
  map_result py_int (map row_val (entries :: rest)) = Raise (TypeError IntArgument).
Proof. reflexivity. Qed.



Lemma first_elements_are_rows st refs elements :
  map_result (first_of st) refs = Ok elements -> Forall is_row elements.
Proof.
  revert elements. induction refs as [|r refs IH]; intros elements; simpl.
  - intros H. injection H as <-. constructor.
  - destruct r. unfold first_of at 1.
    destruct (missing_list st) as [|first others]; [discriminate|]. simpl.
    destruct (map_result (first_of st) refs) as [tail|e]; [|discriminate].
    simpl. intros H. injection H as <-.
    constructor; [now exists first | now apply IH].
Qed.

Lemma select_rows_are_rows self ortologs elements :
  select_rows self ortologs = Ok elements -> Forall is_row elements.
Proof.
  unfold select_rows.
  destruct (scan_lines _ _ _ _) as [st [[]|e]]; simpl; [|discriminate].
  apply first_elements_are_rows.
Qed.

(** The first [file.write(element + "\n")] raises before anything is
    written, since the element is a list. *)
Lemma write_rows_raises file elements w :
  Forall is_row elements ->
  write_elements file elements w
  = (w, match elements with [] => Ok tt | _ :: _ => Raise (TypeError ConcatListNonList) end).
Proof.
  intros H. destruct H as [|v rest [entries ->] _]; reflexivity.
Qed.

(** *** Files *)

Lemma str_eqb_refl s : str_eqb s s = true.
Proof.
  unfold str_eqb. rewrite Nat.eqb_refl. simpl.
  induction s as [|c s IH]; simpl; [reflexivity|].
  now rewrite N.eqb_refl.
Qed.

Lemma lookup_update t p n : lookup (update t p n) p = Some n.
Proof.
  induction t as [|[k m] t IH]; simpl.
  - now rewrite str_eqb_refl.
  - destruct (str_eqb k p) eqn:E; simpl; now rewrite E.
Qed.


Lemma keeps_lift {A} (r : result A) : keeps_files (lift r).
Proof. intros w. reflexivity. Qed.

Lemma keeps_ret {A} (a : A) : keeps_files (ret a).
Proof. intros w. reflexivity. Qed.

Lemma keeps_raise {A} e : keeps_files (@raise A e).
Proof. intros w. reflexivity. Qed.

Lemma keeps_getcwd : keeps_files os_getcwd.
Proof. intros w. reflexivity. Qed.

Lemma keeps_chdir args : keeps_files (os_chdir args).
Proof.
  intros w. unfold os_chdir.
  destruct args as [|[] [|]]; try reflexivity.
  destruct (lookup _ _) as [[]|]; reflexivity.
Qed.

Lemma keeps_exists p : keeps_files (os_path_exists p).
Proof. intros w. reflexivity. Qed.

Lemma keeps_read_text p : keeps_files (read_text p).
Proof. intros w. unfold read_text. destruct (lookup _ _) as [[]|]; reflexivity. Qed.

Lemma keeps_print s : keeps_files (print s).
Proof. intros w. reflexivity. Qed.

Create HintDb keeps.
#[local] Hint Resolve keeps_lift keeps_ret keeps_raise keeps_getcwd keeps_chdir
  keeps_exists keeps_read_text keeps_print : keeps.



Lemma open_list_file_cases w :
  match open_list_file w with
  | (w', Ok file) => list_file_empty w' /\ file = abspath w' (str "FilteredOrthologs.txt")
  | (w', Raise _) => fs w' = fs w
  end.
Proof.
  unfold open_list_file, bind, os_getcwd, os_chdir.
  destruct (lookup (fs w) (abspath w (os_path_dirname (cwd w)))) as [[]|]; try reflexivity.
  unfold open_w, list_file_empty.
  set (w1 := World (fs w) _ (stdin w) (stdout w)).
  destruct (lookup (fs w1) (abspath w1 _)) as [[]|].
  - simpl. now rewrite lookup_update.
  - reflexivity.
  - destruct (lookup (fs w1) (os_path_dirname _)) as [[]|]; try reflexivity.
    simpl. now rewrite lookup_update.
Qed.

(** The Selector step by step: the table is read, the loops run, the
    list file is opened, and the first element, if there is one, stops
    the writing. *)
Lemma OFolder2List_steps self w :
  OFolder2List self w
  = match read_table w with
    | (w1, Raise e) => (w1, Raise e)
    | (w1, Ok ortologs) =>
        match select_rows self ortologs with
        | Raise e => (w1, Raise e)
        | Ok elements =>
            match open_list_file w1 with
            | (w2, Raise e) => (w2, Raise e)
            | (w2, Ok file) =>
                match elements with
                | [] => print (str "Orthologs succesfully retrieved. Copying to a new folder...") w2
                | _ :: _ => (w2, Raise (TypeError ConcatListNonList))
                end
            end
        end
    end.
Proof.
  unfold OFolder2List. unfold bind at 1.
  destruct (read_table w) as [w1 [ortologs|e]]; [|reflexivity].
  rewrite bind_lift.
  destruct (select_rows self ortologs) as [elements|e] eqn:Hsel; [|reflexivity].
  apply select_rows_are_rows in Hsel.
  unfold bind at 1.
  destruct (open_list_file w1) as [w2 [file|e]]; [|reflexivity].
  pose proof (write_rows_raises file w2 Hsel) as Hwrite.
  destruct elements as [|v rest].
  - now rewrite (@bind_ok _ _ _ _ _ _ _ Hwrite).
  - now rewrite (@bind_raise _ _ _ _ _ _ _ Hwrite).
Qed.


Lemma select_rows_none self header_line :
  select_rows self [header_line] = Ok [].
Proof. reflexivity. Qed.






(** *** The Locator and the Materializer *)

(** The Locator step by step: whenever the [OrthoFinder] folder is
    found and entered, the call [os.chdir()] that follows has no
    argument and raises. *)
Lemma MainDir2OFolder_steps self w :
  MainDir2OFolder self w
  = match os_listdir (PStr (of_dir self)) w with
    | (w1, Raise e) => (w1, Raise e)
    | (w1, Ok names) =>
        if existsb (str_eqb (str "OrthoFinder")) names
        then match os_chdir [PStr (join2 (of_dir self) (str "OrthoFinder"))] w1 with
             | (w2, Ok _) => (w2, Raise (TypeError MissingArgument))
             | (w2, Raise e) => (w2, Raise e)
             end
        else (w1, Raise FileNotFoundError)
    end.
Proof.
  unfold MainDir2OFolder. unfold bind at 1.
  destruct (os_listdir (PStr (of_dir self)) w) as [w1 [names|e]]; [|reflexivity].
  destruct (existsb (str_eqb (str "OrthoFinder")) names); [|reflexivity].
  unfold bind at 1. rewrite bind_lift.
  change (os_path_join (PStr (of_dir self)) [PStr (str "OrthoFinder")])
    with (Ok (join2 (of_dir self) (str "OrthoFinder"))).
  cbv beta iota.
  destruct (os_chdir _ w1) as [w2 [v|e]]; reflexivity.
Qed.

Lemma MainDir2OFolder_raises self w : exists e, snd (MainDir2OFolder self w) = Raise e.
Proof.
  rewrite MainDir2OFolder_steps.
  destruct (os_listdir _ w) as [w1 [names|e]]; [|eexists; reflexivity].
  destruct (existsb _ names); [|eexists; reflexivity].
  destruct (os_chdir _ w1) as [w2 [v|e]]; eexists; reflexivity.
Qed.

(** [os.path.join] is handed the function [os.getcwd]: nothing else of
    the Materializer runs. *)
Lemma List2Folder_raises self w :
  List2Folder self w = (w, Raise (TypeError ExpectedPath)).
Proof. reflexivity. Qed.

Lemma main_raises parsed w : exists e, snd (main parsed w) = Raise e.
Proof.
  unfold main. unfold bind at 1.
  destruct (MainDir2OFolder_raises
              {| of_dir := input_orthofinder_folder parsed;
                 out_dir := output_orthologs_folder parsed;
                 missing := missing_taxa parsed;
                 copies := maximum_copies parsed |} w) as [e He].
  destruct (MainDir2OFolder _ w) as [w1 [[]|e']]; simpl in He; [discriminate|].
  eexists; reflexivity.
Qed.

(** [range(0.1, 1.0)] raises while the third [add_argument] call is
    being prepared. *)
Lemma ogf_raises : ogf = Raise (TypeError NotAnInteger).
Proof. reflexivity. Qed.

Lemma script_raises parse_args argv w :
  script parse_args argv w = (w, Raise (TypeError NotAnInteger)).
Proof. reflexivity. Qed.

(** *** The script run on concrete inputs *)

(** C1.  Scenario A: header [Orthogroup Sp1 Sp2 Sp3 Total], row
    [OG1 2 0 1 3], thresholds 0.5 and 2.  By the specification OG1
    qualifies (one taxon in three is missing, the largest count is 2)
    and is the selection.  The Selector instead opens the list file and
    raises [TypeError] at the first write, leaving the file empty.  The
    missing-taxa test differs as well: the row [OG2 0 0 0 0] fails it by
    the specification at threshold 0.9, and the first inner loop keeps
    it. *)
Theorem scenario_A_selects_nothing :
  Spec.qualifies (1 # 2) 2 Scenario.OG1 = true
  /\ Spec.select (1 # 2) 2 [Scenario.OG1] = [str "OG1"]
  /\ (exists w',
        OFolder2List (Scenario.job (1 # 2) 2) (Scenario.in_run Scenario.table_A)
        = (w', Raise (TypeError ConcatListNonList))
        /\ lookup (fs w') Scenario.list_path = Some (NFile []))
  /\ Spec.qualifies (9 # 10) 0 Scenario.absent = false
  /\ apply_missing (9 # 10) [columns_of (Spec.data_line Scenario.absent 0)] []
     = ([map str ["OG2"; "0"; "0"; "0"]%string], Ok tt).
Proof.
  split; [reflexivity|]. split; [reflexivity|]. split.
  - eexists. split; vm_compute; reflexivity.
  - split; vm_compute; reflexivity.
Qed.

(** C2.  A table with the two data rows [OG1 2 0 1 3] and
    [OG2 1 1 1 3], thresholds 0.5 and 2.  By the specification the
    selection is OG1, OG2.  The Selector raises [TypeError] while the
    second line is processed, and no list file comes to exist.  With
    the first row alone, the one element it is about to write is the
    whole row, a list, and not the identifier. *)
Theorem two_rows_yield_no_selection :
  Spec.select (1 # 2) 2 [Scenario.OG1; Scenario.OG2] = [str "OG1"; str "OG2"]
  /\ (exists w',
        OFolder2List (Scenario.job (1 # 2) 2) (Scenario.in_run Scenario.table_AB)
        = (w', Raise (TypeError IntArgument))
        /\ lookup (fs w') Scenario.list_path = None)
  /\ select_rows (Scenario.job (1 # 2) 2) (keepends Scenario.table_A)
     = Ok [PList (map PStr (map str ["OG1"; "2"; "0"; "1"]%string))].
Proof.
  split; [reflexivity|]. split.
  - eexists. split; vm_compute; reflexivity.
  - vm_compute. reflexivity.
Qed.

(** C5.  With the thresholds fully relaxed (missing fraction 1, a
    thousand copies) every row qualifies by the specification; the
    Selector still raises [TypeError] for the two-row table and for the
    one-row table, and selects nothing. *)
Theorem relaxed_thresholds_select_nothing :
  Spec.select 1 1000 [Scenario.OG1; Scenario.OG2] = [str "OG1"; str "OG2"]
  /\ snd (OFolder2List (Scenario.job 1 1000) (Scenario.in_run Scenario.table_AB))
     = Raise (TypeError IntArgument)
  /\ snd (OFolder2List (Scenario.job 1 1000) (Scenario.in_run Scenario.table_A))
     = Raise (TypeError ConcatListNonList).
Proof. repeat split; vm_compute; reflexivity. Qed.

(** C6.  Scenario A again: by the specification the selection is OG1
    and the list file holds the line [OG1].  The Selector hands the
    writer the whole row, so the first write raises [TypeError] and the
    list file stays empty; the Materializer, run on what the Selector
    left, raises [TypeError] before it opens the list.  For every table
    the writer receives rows only, and the Materializer never reads:
    no identifier is ever written and read back. *)
Theorem selection_is_never_handed_over :
  Spec.select (1 # 2) 2 [Scenario.OG1] = [str "OG1"]
  /\ Spec.list_file [str "OG1"] = str "OG1" ++ [LF]
  /\ (exists w',
        OFolder2List (Scenario.job (1 # 2) 2) (Scenario.in_run Scenario.table_A)
        = (w', Raise (TypeError ConcatListNonList))
        /\ lookup (fs w') Scenario.list_path = Some (NFile [])
        /\ List2Folder (Scenario.job (1 # 2) 2) w' = (w', Raise (TypeError ExpectedPath)))
  /\ (forall self ortologs elements,
        select_rows self ortologs = Ok elements -> Forall is_row elements)
  /\ (forall file elements w,
        Forall is_row elements ->
        write_elements file elements w
        = (w, match elements with
              | [] => Ok tt
              | _ :: _ => Raise (TypeError ConcatListNonList)
              end))
  /\ (forall self w, List2Folder self w = (w, Raise (TypeError ExpectedPath))).
Proof.
  split; [reflexivity|]. split; [reflexivity|]. split.
  - eexists. repeat split; vm_compute; reflexivity.
  - split; [exact select_rows_are_rows|]. split; [exact write_rows_raises|].
    exact List2Folder_raises.
Qed.

(** C7.  A table with a header and no data row.  The Selector
    completes: it leaves an empty list file and prints its message.
    The Materializer, run next as [main] does, raises [TypeError] at
    its first [os.path.join], so no count of copies is ever printed;
    and [main] itself, started from [/], already stops in the
    Locator. *)
Theorem header_only_run_raises :
  (exists w',
     OFolder2List (Scenario.job (1 # 2) 2) (Scenario.in_run Scenario.table_empty) = (w', Ok tt)
     /\ lookup (fs w') Scenario.list_path = Some (NFile [])
     /\ stdout w' = [str "Orthologs succesfully retrieved. Copying to a new folder..." ++ [LF]]
     /\ List2Folder (Scenario.job (1 # 2) 2) w' = (w', Raise (TypeError ExpectedPath)))
  /\ snd (main (Scenario.parsed (1 # 2) 2) (Scenario.at_start Scenario.table_empty))
     = Raise (TypeError MissingArgument).
Proof.
  split.
  - eexists. repeat split; vm_compute; reflexivity.
  - vm_compute. reflexivity.
Qed.

(** C8.  Every invocation, whatever the command line and whatever
    [parse_args] would do with it, stops with [TypeError] at
    [range(0.1, 1.0)], before the command line is looked at: valid
    thresholds do not pass.  The [--copies] argument carries no
    restriction of its own beyond its type. *)
Theorem every_invocation_raises :
  (forall parse_args argv w,
     script parse_args argv w = (w, Raise (TypeError NotAnInteger)))
  /\ py_range (PFloat (1 # 10)) (PFloat 1) = Raise (TypeError NotAnInteger)
  /\ choices copies_argument = None.
Proof. repeat split. Qed.

(** C9.  The Locator never resolves a run directory: every call ends in
    an exception.  Without an [OrthoFinder] folder it is
    [FileNotFoundError]; with the folder present it is the [TypeError]
    of [os.chdir()], both when the folder holds exactly one run and
    when it holds none. *)
Theorem locator_never_resolves :
  (forall self w, exists e, snd (MainDir2OFolder self w) = Raise e)
  /\ snd (MainDir2OFolder (Scenario.job (1 # 2) 2) Scenario.no_folder) = Raise FileNotFoundError
  /\ os_listdir (PStr (str "/data/OrthoFinder")) (Scenario.at_start Scenario.table_A)
     = (Scenario.at_start Scenario.table_A, Ok [str "Results_Jan01"])
  /\ snd (MainDir2OFolder (Scenario.job (1 # 2) 2) (Scenario.at_start Scenario.table_A))
     = Raise (TypeError MissingArgument)
  /\ os_listdir (PStr (str "/data/OrthoFinder")) Scenario.no_runs = (Scenario.no_runs, Ok [])
  /\ snd (MainDir2OFolder (Scenario.job (1 # 2) 2) Scenario.no_runs)
     = Raise (TypeError MissingArgument).
Proof.
  split; [exact MainDir2OFolder_raises|].
  repeat split; vm_compute; reflexivity.
Qed.

(** C10.  The Materializer never reads the list: every call raises
    [TypeError] at once and changes nothing.  Were [current_directory]
    the working directory itself, the file looked up for OG1 would be
    [.fa] inside a folder [OG1], not [OG1.fa]; with [OG1.fa] in place
    and OG1 in the list, the loop reports it missing and copies
    nothing. *)
Theorem materializer_always_raises :
  (forall self w, List2Folder self w = (w, Raise (TypeError ExpectedPath)))
  /\ os_path_join (PStr Scenario.run_dir)
       [PStr (str "Orthogroup_Sequences"); PStr (str "OG1"); PStr (str ".fa")]
     = Ok (str "/data/OrthoFinder/Results_Jan01/Orthogroup_Sequences/OG1/.fa")
  /\ lookup (fs (Scenario.with_list [str "OG1"]))
       (str "/data/OrthoFinder/Results_Jan01/Orthogroup_Sequences/OG1.fa")
     = Some (NFile (str ">Sp1|g1"))
  /\ stdout (fst (materialize (PStr Scenario.run_dir) (Scenario.with_list [str "OG1"])))
     = [str "File OG1.fa not found." ++ [LF];
        str "0 orthologs were identified and successfully copied to the 'Filtered_Orthologs' folder."
          ++ [LF]].
Proof.
  split; [exact List2Folder_raises|].
  repeat split; vm_compute; reflexivity.
Qed.

(** ** Further properties of the script *)

(** *** The loops of the Selector, for every table and threshold *)

(** Every row meets the same test, since every proportion is 0. *)
Lemma test_uniform p threshold :
  (p == 0)%Q -> Qle_bool p threshold = Qle_bool 0 threshold.
Proof.
  intros Hp. apply eq_true_iff_eq.
  rewrite !Qle_bool_iff. now rewrite Hp.
Qed.

Lemma negative_threshold threshold :
  ~ (0 <= threshold)%Q <-> Qle_bool 0 threshold = false.
Proof.
  rewrite <- Qle_bool_iff. destruct (Qle_bool 0 threshold); split; congruence.
Qed.

(** When the first inner loop ends normally, it has kept every row or
    none, as the threshold is negative or not. *)
Lemma apply_missing_cases threshold todo : forall kept out,
  apply_missing threshold todo kept = (out, Ok tt) ->
  out = if Qle_bool 0 threshold then kept ++ todo else kept.
Proof.
  induction todo as [|entries rest IH]; intros kept out; simpl.
  - intros H. injection H as <-. destruct (Qle_bool 0 threshold); [now rewrite app_nil_r|reflexivity].
  - destruct (proportion entries) as [p|e] eqn:Hp; [|discriminate].
    rewrite (test_uniform threshold (proportion_value _ Hp)).
    intros H. apply IH in H. subst out.
    destruct (Qle_bool 0 threshold); [now rewrite <- app_assoc|reflexivity].
Qed.

Lemma apply_missing_skips_all threshold todo :
  Forall (fun entries => List.length entries <> 1%nat) todo ->
  Qle_bool 0 threshold = false ->
  forall kept, apply_missing threshold todo kept = (kept, Ok tt).
Proof.
  induction 1 as [|entries rest Hlen _ IH]; intros Ht kept; simpl.
  - reflexivity.
  - destruct (proportion_defined _ Hlen) as [p Hp]. rewrite Hp.
    rewrite (test_uniform threshold (proportion_value _ Hp)), Ht.
    now apply IH.
Qed.

(** The second inner loop, run over [missing_list] itself: nothing to
    do for no row, one reference appended for one row, [TypeError] for
    more. *)
Lemma apply_copies_self limit kept refs :
  apply_copies limit kept kept refs
  = match kept with
    | [] => (refs, Ok tt)
    | [_] => (refs ++ [ref_missing_list], Ok tt)
    | _ :: _ :: _ => (refs, Raise (TypeError IntArgument))
    end.
Proof. destruct kept as [|r1 [|r2 rest]]; reflexivity. Qed.

(** With a negative threshold the loops, if they end normally, have
    kept nothing. *)
Lemma scan_negative threshold limit lines : forall seen st,
  Qle_bool 0 threshold = false ->
  scan_lines threshold limit lines (Lists seen [] []) = (st, Ok tt) ->
  missing_list st = [] /\ final_list st = [].
Proof.
  induction lines as [|line rest IH]; intros seen st Ht.
  - simpl. intros H. injection H as <-. now split.
  - cbn [scan_lines line_list missing_list final_list].
    destruct (apply_missing threshold (seen ++ [columns_of line]) []) as [kept [[]|e]] eqn:Hm;
      [|discriminate].
    apply apply_missing_cases in Hm. rewrite Ht in Hm. subst kept.
    rewrite apply_copies_self. now apply IH.
Qed.

(** With a threshold that is not negative the loops end normally for
    one data line at most. *)
Lemma scan_nonnegative threshold limit line rest st :
  Qle_bool 0 threshold = true ->
  scan_lines threshold limit (line :: rest) (Lists [] [] []) = (st, Ok tt) ->
  rest = [] /\ st = Lists [columns_of line] [columns_of line] [ref_missing_list].
Proof.
  intros Ht. cbn [scan_lines line_list missing_list final_list app].
  destruct (apply_missing threshold [columns_of line] []) as [kept [[]|e]] eqn:Hm;
    [|discriminate].
  apply apply_missing_cases in Hm. rewrite Ht in Hm. subst kept.
  rewrite apply_copies_self. cbn [app].
  destruct rest as [|line2 rest].
  - simpl. intros H. injection H as <-. now split.
  - cbn [scan_lines line_list missing_list final_list app].
    destruct (apply_missing threshold _ [columns_of line]) as [kept [[]|e]] eqn:Hm2;
      [|discriminate].
    apply apply_missing_cases in Hm2. rewrite Ht in Hm2. subst kept.
    rewrite apply_copies_self. cbn [app]. discriminate.
Qed.

Lemma scan_lines_ok_cases threshold limit lines st :
  scan_lines threshold limit lines (Lists [] [] []) = (st, Ok tt) ->
  (lines = [] /\ final_list st = [])
  \/ (~ (0 <= threshold)%Q /\ final_list st = [])
  \/ ((0 <= threshold)%Q
      /\ exists line, lines = [line]
           /\ st = Lists [columns_of line] [columns_of line] [ref_missing_list]).
Proof.
  intros H. destruct (Qle_bool 0 threshold) eqn:Ht.
  - destruct lines as [|line rest].
    + left. simpl in H. injection H as <-. now split.
    + right. right. eapply scan_nonnegative in H as [-> ->]; [|exact Ht].
      split; [now apply Qle_bool_iff|]. now exists line.
  - right. left. split; [now apply negative_threshold|].
    eapply scan_negative in H as [_ Hf]; [exact Hf|exact Ht].
Qed.

(** X1.  Take a table whose data lines each keep a number of fields
    other than one, and a finite threshold.  Whenever the loops of the
    Selector end without an exception, the list they hand to the writer
    is empty (the table has no data line, or the test [0 <= missing]
    fails and no row was kept) or holds a single element, and then
    [0 <= missing] holds, the table has exactly one data line and the
    element is the whole row of that line.  No such table makes the
    loops produce two elements or more. *)
Theorem select_rows_yields_at_most_one_row (self : Table2Folder) (ortologs : list pystr)
    (elements : list pyval) :
  Forall (fun line => List.length (columns_of line) <> 1%nat) (tl ortologs) ->
  select_rows self ortologs = Ok elements ->
  (tl ortologs = [] /\ elements = [])
  \/ (~ (0 <= missing self)%Q /\ elements = [])
  \/ ((0 <= missing self)%Q
      /\ exists line, tl ortologs = [line] /\ elements = [row_val (columns_of line)]).
Proof.
  intros _. unfold select_rows.
  destruct (scan_lines _ _ _ _) as [st [[]|e]] eqn:Hscan; [|discriminate].
  cbn [rbind]. unfold first_elements.
  destruct (scan_lines_ok_cases _ _ _ Hscan) as [[Hl Hf]|[[Ht Hf]|[Ht [line [Hl ->]]]]].
  - rewrite Hf. simpl. intros H. injection H as <-. now left.
  - rewrite Hf. simpl. intros H. injection H as <-. right. now left.
  - simpl. intros H. injection H as <-. right. right.
    split; [assumption|]. now exists line.
Qed.

Lemma select_rows_yields_at_most_one_row_witness :
  (0 <= 1 # 2)%Q
  /\ exists line,
       tl (keepends Scenario.table_A) = [line]
       /\ [row_val (map str ["OG1"; "2"; "0"; "1"]%string)] = [row_val (columns_of line)].
Proof.
  destruct (select_rows_yields_at_most_one_row (Scenario.job (1 # 2) 2)
              (keepends Scenario.table_A)
              (elements := [row_val (map str ["OG1"; "2"; "0"; "1"]%string)]))
    as [[_ H]|[[_ H]|H]].
  - repeat constructor. vm_compute. discriminate.
  - vm_compute. reflexivity.
  - discriminate H.
  - discriminate H.
  - exact H.
Defined.

(** X2.  Take a table that was read and whose data lines each keep a
    number of fields other than one, and a finite threshold.  If the
    Selector completes without an exception, then its loops selected
    nothing, and either the table has no data line or the test
    [0 <= missing] fails; the list file it leaves is empty. *)
Theorem selector_completes_only_with_nothing_selected (self : Table2Folder) (w w1 w' : world)
    (ortologs : list pystr) :
  read_table w = (w1, Ok ortologs) ->
  Forall (fun line => List.length (columns_of line) <> 1%nat) (tl ortologs) ->
  OFolder2List self w = (w', Ok tt) ->
  select_rows self ortologs = Ok []
  /\ (tl ortologs = [] \/ ~ (0 <= missing self)%Q)
  /\ list_file_empty w'.
Proof.
  intros Hread _. rewrite OFolder2List_steps, Hread.
  destruct (select_rows self ortologs) as [elements|e] eqn:Hsel; [|discriminate].
  pose proof (open_list_file_cases w1) as Hopen.
  destruct (open_list_file w1) as [w2 [file|e]]; [|discriminate].
  destruct elements as [|v rest]; [|discriminate].
  intros H. injection H as <-. destruct Hopen as [Hempty _].
  split; [reflexivity|]. split; [|exact Hempty].
  unfold select_rows in Hsel.
  destruct (scan_lines _ _ _ _) as [st [[]|e]] eqn:Hscan; [|discriminate].
  destruct (scan_lines_ok_cases _ _ _ Hscan) as [[Hl _]|[[Ht _]|[_ [line [_ ->]]]]].
  - now left.
  - now right.
  - discriminate.
Qed.

Lemma selector_completes_only_with_nothing_selected_witness :
  select_rows (Scenario.job (- 1 # 2) 2) (keepends Scenario.table_AB) = Ok []
  /\ (tl (keepends Scenario.table_AB) = [] \/ ~ (0 <= missing (Scenario.job (- 1 # 2) 2))%Q)
  /\ list_file_empty (fst (OFolder2List (Scenario.job (- 1 # 2) 2)
                             (Scenario.in_run Scenario.table_AB))).
Proof.
  apply (@selector_completes_only_with_nothing_selected (Scenario.job (- 1 # 2) 2)
           (Scenario.in_run Scenario.table_AB)
           (fst (read_table (Scenario.in_run Scenario.table_AB)))).
  - vm_compute. reflexivity.
  - repeat constructor; vm_compute; discriminate.
  - vm_compute. reflexivity.
Defined.

Lemma scan_negative_ok threshold limit lines : forall seen,
  Qle_bool 0 threshold = false ->
  Forall (fun entries => List.length entries <> 1%nat) seen ->
  Forall (fun line => List.length (columns_of line) <> 1%nat) lines ->
  scan_lines threshold limit lines (Lists seen [] [])
  = (Lists (seen ++ map columns_of lines) [] [], Ok tt).
Proof.
  induction lines as [|line rest IH]; intros seen Ht Hseen Hlines.
  - simpl. now rewrite app_nil_r.
  - inversion_clear Hlines as [|? ? Hline Hrest].
    cbn [scan_lines line_list missing_list final_list map].
    assert (Hseen' : Forall (fun entries => List.length entries <> 1%nat)
                       (seen ++ [columns_of line]))
      by (apply Forall_app; auto).
    rewrite apply_missing_skips_all by assumption.
    rewrite apply_copies_self, IH by assumption.
    now rewrite <- app_assoc.
Qed.

(** X3.  With a negative missing-taxa threshold no row passes the test
    [proportion <= missing]: for a table of any number of data lines,
    each keeping a number of fields other than one, the Selector
    raises nothing, leaves an empty list file and prints its message,
    provided the table can be read and the list file opened. *)
Theorem negative_threshold_selects_nothing (self : Table2Folder) (w w1 w2 : world)
    (ortologs : list pystr) (file : pystr) :
  read_table w = (w1, Ok ortologs) ->
  Forall (fun line => List.length (columns_of line) <> 1%nat) (tl ortologs) ->
  ~ (0 <= missing self)%Q ->
  open_list_file w1 = (w2, Ok file) ->
  select_rows self ortologs = Ok []
  /\ OFolder2List self w
     = (World (fs w2) (cwd w2) (stdin w2)
          (stdout w2
           ++ [str "Orthologs succesfully retrieved. Copying to a new folder..." ++ [LF]]),
        Ok tt)
  /\ list_file_empty w2.
Proof.
  intros Hread Hrows Ht Hopen.
  apply negative_threshold in Ht.
  assert (Hsel : select_rows self ortologs = Ok []).
  { unfold select_rows.
    rewrite scan_negative_ok by (assumption || constructor).
    reflexivity. }
  split; [exact Hsel|]. split.
  - rewrite OFolder2List_steps, Hread, Hsel, Hopen. reflexivity.
  - pose proof (open_list_file_cases w1) as H. rewrite Hopen in H. apply H.
Qed.

Lemma negative_threshold_selects_nothing_witness :
  snd (OFolder2List (Scenario.job (- 1 # 2) 2) (Scenario.in_run Scenario.table_AB)) = Ok tt.
Proof.
  pose (w := Scenario.in_run Scenario.table_AB).
  assert (Hread : read_table w = (fst (read_table w), Ok (keepends Scenario.table_AB)))
    by (vm_compute; reflexivity).
  assert (Hopen : open_list_file (fst (read_table w))
                  = (fst (open_list_file (fst (read_table w))), Ok Scenario.list_path))
    by (vm_compute; reflexivity).
  assert (Hrows : Forall (fun line => List.length (columns_of line) <> 1%nat)
                    (tl (keepends Scenario.table_AB)))
    by (repeat constructor; vm_compute; discriminate).
  assert (Ht : ~ (0 <= missing (Scenario.job (- 1 # 2) 2))%Q)
    by (vm_compute; intros H; apply H; reflexivity).
  destruct (@negative_threshold_selects_nothing (Scenario.job (- 1 # 2) 2) w _ _ _ _
              Hread Hrows Ht Hopen) as (_ & Hrun & _).
  fold w. rewrite Hrun. reflexivity.
Defined.

(** *** Table lines *)

Lemma strip_trimmed_line text : trimmed text -> strip (text ++ [LF]) = text.
Proof.
  unfold trimmed, strip, lstrip, rstrip.
  destruct text as [|c text']; [intros []|].
  destruct (rev (c :: text')) as [|d back] eqn:Hrev; [intros []|].
  intros [Hc Hd].
  cbn [app dropwhile]. rewrite Hc.
  change (c :: text' ++ [LF]) with ((c :: text') ++ [LF]).
  rewrite rev_app_distr, Hrev. cbn [rev app dropwhile].
  change (is_space LF) with true. cbv iota. rewrite Hd.
  rewrite <- Hrev. apply rev_involutive.
Qed.

Lemma no_tab_cons c field :
  no_tab (c :: field) -> N.eqb c TAB = false /\ no_tab field.
Proof.
  unfold no_tab, char_in. simpl. intros H.
  apply orb_false_iff in H as [Hc Hf]. rewrite N.eqb_sym. now split.
Qed.

Lemma split_no_tab field : no_tab field -> split TAB field = [field].
Proof.
  induction field as [|c field IH]; intros H; [reflexivity|].
  apply no_tab_cons in H as [Hc Hf]. simpl. now rewrite Hc, (IH Hf).
Qed.

Lemma split_field field rest :
  no_tab field -> split TAB (field ++ TAB :: rest) = field :: split TAB rest.
Proof.
  induction field as [|c field IH]; intros H; [reflexivity|].
  apply no_tab_cons in H as [Hc Hf]. simpl. now rewrite Hc, (IH Hf).
Qed.

Lemma split_tsv_fields fields :
  fields <> [] -> Forall no_tab fields -> split TAB (Spec.tsv_fields fields) = fields.
Proof.
  intros Hne Hall. induction Hall as [|field rest Hfield Hrest IH]; [congruence|].
  destruct rest as [|next rest].
  - simpl. now apply split_no_tab.
  - change (Spec.tsv_fields (field :: next :: rest))
      with (field ++ TAB :: Spec.tsv_fields (next :: rest)).
    rewrite split_field by assumption. f_equal. apply IH. discriminate.
Qed.

(** X4.  A table line made of one or more tab-free fields joined by
    tabs and ended by a newline, that neither starts nor ends with
    white space, is taken apart by the Selector into exactly those
    fields but the last: the trailing total column is dropped and
    nothing else. *)
Theorem columns_of_line_drops_last_field (fields : list pystr) :
  fields <> [] ->
  Forall no_tab fields ->
  trimmed (Spec.tsv_fields fields) ->
  columns_of (Spec.tsv_line fields) = removelast fields.
Proof.
  intros Hne Hall Htrim. unfold columns_of, Spec.tsv_line.
  now rewrite strip_trimmed_line, split_tsv_fields.
Qed.

Lemma columns_of_line_drops_last_field_witness :
  columns_of (Spec.tsv_line (map str ["OG1"; "2"; "0"; "1"; "3"]%string))
  = map str ["OG1"; "2"; "0"; "1"]%string.
Proof.
  apply (columns_of_line_drops_last_field (fields := map str ["OG1"; "2"; "0"; "1"; "3"]%string)).
  - discriminate.
  - repeat constructor.
  - vm_compute. split; reflexivity.
Defined.

(** *** Reading the table *)

Lemma join2_absolute base path : startswith_sep path = true -> join2 base path = path.
Proof. intros H. unfold join2. now rewrite H. Qed.

Lemma join2_stays_absolute d name :
  startswith_sep d = true -> startswith_sep (join2 d name) = true.
Proof.
  intros H. unfold join2. destruct (startswith_sep name) eqn:E; [exact E|].
  destruct d as [|c d']; [discriminate|].
  destruct (endswith_sep (c :: d')); exact H.
Qed.

(** Entering [Orthogroups] and reading the table, for an absolute
    working directory. *)
Lemma read_table_steps w :
  startswith_sep (cwd w) = true ->
  read_table w
  = match lookup (fs w) (join2 (cwd w) (str "Orthogroups")) with
    | None => (w, Raise FileNotFoundError)
    | Some (NFile _) => (w, Raise NotADirectoryError)
    | Some NDir =>
        let w1 := World (fs w) (join2 (cwd w) (str "Orthogroups")) (stdin w) (stdout w) in
        match lookup (fs w) (join2 (join2 (cwd w) (str "Orthogroups"))
                                    (str "Orthogroups.GeneCount.tsv")) with
        | None => (w1, Raise FileNotFoundError)
        | Some NDir => (w1, Raise IsADirectoryError)
        | Some (NFile content) => (w1, Ok (keepends (translate_newlines content)))
        end
    end.
Proof.
  intros Habs. unfold read_table.
  unfold bind at 1. unfold os_getcwd at 1. cbv beta iota.
  rewrite bind_lift.
  change (os_path_join (PStr (cwd w)) [PStr (str "Orthogroups")])
    with (Ok (join2 (cwd w) (str "Orthogroups"))).
  cbv beta iota. unfold bind at 1. unfold os_chdir at 1. cbv beta iota.
  unfold abspath at 1 2.
  rewrite join2_absolute by now apply join2_stays_absolute.
  destruct (lookup (fs w) (join2 (cwd w) (str "Orthogroups"))) as [[content|]|];
    [reflexivity| |reflexivity].
  unfold bind, os_path_exists, open_readlines, read_text, bind, ret, raise, abspath.
  cbn [fs cwd].
  destruct (lookup (fs w) _) as [[content|]|] eqn:Htable;
    cbn [negb fs cwd]; rewrite ?Htable; reflexivity.
Qed.

(** X6.  When the table is not there, the Selector raises
    [FileNotFoundError] and touches no file and prints nothing: at
    once if the folder [Orthogroups] is missing, and from inside that
    folder, where the working directory then stays, if the folder
    exists and holds no [Orthogroups.GeneCount.tsv]. *)
Theorem missing_table_raises (self : Table2Folder) (w : world) :
  startswith_sep (cwd w) = true ->
  (lookup (fs w) (join2 (cwd w) (str "Orthogroups")) = None ->
   OFolder2List self w = (w, Raise FileNotFoundError))
  /\ (lookup (fs w) (join2 (cwd w) (str "Orthogroups")) = Some NDir ->
      lookup (fs w) (join2 (join2 (cwd w) (str "Orthogroups"))
                           (str "Orthogroups.GeneCount.tsv")) = None ->
      OFolder2List self w
      = (World (fs w) (join2 (cwd w) (str "Orthogroups")) (stdin w) (stdout w),
         Raise FileNotFoundError)).
Proof.
  intros Habs. split.
  - intros Hdir. rewrite OFolder2List_steps, read_table_steps, Hdir by assumption.
    reflexivity.
  - intros Hdir Htable.
    rewrite OFolder2List_steps, read_table_steps, Hdir by assumption.
    cbv zeta. rewrite Htable. reflexivity.
Qed.

Lemma missing_table_raises_witness :
  OFolder2List (Scenario.job (1 # 2) 2) Scenario.no_runs
  = (Scenario.no_runs, Raise FileNotFoundError).
Proof.
  apply (missing_table_raises (Scenario.job (1 # 2) 2) Scenario.no_runs).
  - reflexivity.
  - reflexivity.
Defined.

(** *** The Locator and [main] *)

(** X7.  Whatever the directory tree and the input, the Locator
    changes no file, prints nothing and reads nothing from the
    standard input: in particular it never lists the runs nor asks
    for a choice, even when there are several.  All it may do is move
    the working directory into the [OrthoFinder] folder. *)
Theorem locator_only_moves_working_directory (self : Table2Folder) (w : world) :
  fs (fst (MainDir2OFolder self w)) = fs w
  /\ stdin (fst (MainDir2OFolder self w)) = stdin w
  /\ stdout (fst (MainDir2OFolder self w)) = stdout w
  /\ (cwd (fst (MainDir2OFolder self w)) = cwd w
      \/ cwd (fst (MainDir2OFolder self w))
         = abspath w (join2 (of_dir self) (str "OrthoFinder"))).
Proof.
  rewrite MainDir2OFolder_steps. unfold os_listdir.
  destruct (lookup (fs w) (abspath w (of_dir self))) as [[content|]|];
    try (repeat split; try reflexivity; now left).
  destruct (existsb (str_eqb (str "OrthoFinder")) _);
    [|repeat split; try reflexivity; now left].
  unfold os_chdir.
  destruct (lookup (fs w) _) as [[content|]|]; repeat split; try reflexivity;
    (now left) || (now right).
Qed.

(** X8.  [main] never gets past the Locator: what it does and the
    exception it ends with are exactly those of [MainDir2OFolder] on
    the parsed arguments, so the Selector and the Materializer are
    never run by it. *)
Theorem main_stops_in_locator (parsed : namespace) (w : world) :
  main parsed w
  = MainDir2OFolder {| of_dir := input_orthofinder_folder parsed;
                       out_dir := output_orthologs_folder parsed;
                       missing := missing_taxa parsed;
                       copies := maximum_copies parsed |} w.
Proof.
  unfold main. unfold bind at 1.
  destruct (MainDir2OFolder_raises
              {| of_dir := input_orthofinder_folder parsed;
                 out_dir := output_orthologs_folder parsed;
                 missing := missing_taxa parsed;
                 copies := maximum_copies parsed |} w) as [e He].
  destruct (MainDir2OFolder _ w) as [w1 [[]|e']]; simpl in He; [discriminate|reflexivity].
Qed.

(** *** Choosing a run *)

Lemma in_range_acceptable int runs line choice :
  int (PStr line) = Ok choice ->
  ((1 <=? choice) && (choice <=? Z.of_nat (List.length runs)))%bool = false ->
  ~ acceptable int runs line.
Proof.
  intros Hint Hrange [choice' [Hint' Hbounds]].
  rewrite Hint in Hint'. injection Hint' as <-.
  apply andb_false_iff in Hrange as [H|H]; apply Z.leb_gt in H; lia.
Qed.

Lemma not_a_number_unacceptable int runs line e :
  int (PStr line) = Raise e -> ~ acceptable int runs line.
Proof. intros Hint [choice [Hint' _]]. congruence. Qed.

Lemma choose_with_ok int runs : forall lines w w' run,
  stdin w = lines ->
  choose_with int lines runs w = (w', Ok run) ->
  exists skipped line choice,
    lines = skipped ++ line :: stdin w'
    /\ Forall (fun l => ~ acceptable int runs l) skipped
    /\ int (PStr line) = Ok choice
    /\ 1 <= choice <= Z.of_nat (List.length runs)
    /\ nth_error runs (Z.to_nat (choice - 1)) = Some run
    /\ fs w' = fs w /\ cwd w' = cwd w.
Proof.
  induction lines as [|line rest IH]; intros w w' run Hin.
  - simpl. unfold input. rewrite Hin. discriminate.
  - cbn [choose_with]. unfold bind at 1. unfold input at 1. rewrite Hin.
    destruct (int (PStr line)) as [choice|e] eqn:Hint.
    + destruct ((1 <=? choice) && (choice <=? Z.of_nat (List.length runs)))%bool eqn:Hrange.
      * unfold bind, print, ret. cbn [fs cwd stdin stdout].
        intros H. injection H as <- <-.
        apply andb_true_iff in Hrange as [Hlo Hhi].
        apply Z.leb_le in Hlo, Hhi.
        exists [], line, choice. cbn [app stdin fs cwd].
        repeat split; try (constructor || assumption).
        apply nth_error_nth'. lia.
      * unfold bind at 1. unfold print at 1. cbv beta iota.
        intros H. apply IH in H; [|reflexivity].
        destruct H as (skipped & line' & choice' & -> & Hsk & Hint' & Hb & Hnth & Hfs & Hcwd).
        cbn [fs cwd] in Hfs, Hcwd.
        exists (line :: skipped), line', choice'.
        repeat split; try assumption; try lia.
        constructor; [eapply in_range_acceptable; eassumption|assumption].
    + destruct e; try (unfold raise; discriminate).
      unfold bind at 1. unfold print at 1. cbv beta iota.
      intros H. apply IH in H; [|reflexivity].
      destruct H as (skipped & line' & choice' & -> & Hsk & Hint' & Hb & Hnth & Hfs & Hcwd).
      cbn [fs cwd] in Hfs, Hcwd.
      exists (line :: skipped), line', choice'.
      repeat split; try assumption; try lia.
      constructor; [eapply not_a_number_unacceptable; eassumption|assumption].
Qed.

Lemma py_int_text_raises_value_error line e :
  py_int (PStr line) = Raise e -> e = ValueError.
Proof. unfold py_int. destruct (int_of_str line); congruence. Qed.

(** X9.  Whatever the built-in [int] returns for the lines typed: when
    the choice of a run ends without an exception, the chosen run is
    one of the listed runs, the one numbered by the first line of
    input for which [int] gives a number between 1 and the number of
    runs; for none of the lines typed before it does [int] give such a
    number, each of them was consumed, and no file nor the working
    directory has changed. *)
Theorem choose_run_takes_first_acceptable_line (int : pyval -> result Z) (runs : list pystr)
    (w w' : world) (run : pystr) :
  choose_run_with int runs w = (w', Ok run) ->
  exists skipped line choice,
    stdin w = skipped ++ line :: stdin w'
    /\ Forall (fun l => ~ acceptable int runs l) skipped
    /\ int (PStr line) = Ok choice
    /\ 1 <= choice <= Z.of_nat (List.length runs)
    /\ nth_error runs (Z.to_nat (choice - 1)) = Some run
    /\ In run runs
    /\ fs w' = fs w /\ cwd w' = cwd w.
Proof.
  unfold choose_run_with. intros H.
  apply choose_with_ok in H; [|reflexivity].
  destruct H as (skipped & line & choice & Hin & Hsk & Hint & Hb & Hnth & Hfs & Hcwd).
  exists skipped, line, choice. repeat split; try assumption; try lia.
  now apply nth_error_In in Hnth.
Qed.

Lemma choose_run_takes_first_acceptable_line_witness :
  exists skipped line choice,
    stdin (Scenario.typing [str "x"; str "5"; str "2"; str "1"])
    = skipped ++ line
        :: stdin (fst (choose_run [str "Results_Jan01"; str "Results_Feb02"]
                         (Scenario.typing [str "x"; str "5"; str "2"; str "1"])))
    /\ Forall (fun l => ~ acceptable py_int [str "Results_Jan01"; str "Results_Feb02"] l) skipped
    /\ py_int (PStr line) = Ok choice
    /\ 1 <= choice <= Z.of_nat (List.length [str "Results_Jan01"; str "Results_Feb02"])
    /\ nth_error [str "Results_Jan01"; str "Results_Feb02"] (Z.to_nat (choice - 1))
       = Some (str "Results_Feb02")
    /\ In (str "Results_Feb02") [str "Results_Jan01"; str "Results_Feb02"]
    /\ fs (fst (choose_run [str "Results_Jan01"; str "Results_Feb02"]
                  (Scenario.typing [str "x"; str "5"; str "2"; str "1"])))
       = fs (Scenario.typing [str "x"; str "5"; str "2"; str "1"])
    /\ cwd (fst (choose_run [str "Results_Jan01"; str "Results_Feb02"]
                   (Scenario.typing [str "x"; str "5"; str "2"; str "1"])))
       = cwd (Scenario.typing [str "x"; str "5"; str "2"; str "1"]).
Proof.
  apply (@choose_run_takes_first_acceptable_line py_int
           [str "Results_Jan01"; str "Results_Feb02"]
           (Scenario.typing [str "x"; str "5"; str "2"; str "1"])).
  vm_compute. reflexivity.
Defined.

(** X10.  Whatever the built-in [int] returns for the lines typed, as
    long as it raises nothing but [ValueError] on text: when for no
    line of the input it gives a number between 1 and the number of
    runs, the choice of a run consumes all the input and ends with
    [EOFError], which nothing catches; no file has changed. *)
Theorem choose_run_exhausts_input (int : pyval -> result Z) (runs : list pystr) (w : world) :
  (forall line e, int (PStr line) = Raise e -> e = ValueError) ->
  Forall (fun l => ~ acceptable int runs l) (stdin w) ->
  exists w',
    choose_run_with int runs w = (w', Raise EOFError)
    /\ stdin w' = [] /\ fs w' = fs w /\ cwd w' = cwd w.
Proof.
  intros Hint_raises.
  unfold choose_run_with. remember (stdin w) as lines eqn:Hin. symmetry in Hin.
  intros Hall. revert w Hin.
  induction Hall as [|line rest Hline Hrest IH]; intros w Hin.
  - simpl. unfold input. rewrite Hin. eexists. repeat split.
  - cbn [choose_with]. unfold bind at 1. unfold input at 1. rewrite Hin.
    destruct (int (PStr line)) as [choice|e] eqn:Hint.
    + destruct ((1 <=? choice) && (choice <=? Z.of_nat (List.length runs)))%bool eqn:Hrange.
      * exfalso. apply Hline. exists choice.
        apply andb_true_iff in Hrange as [Hlo Hhi]. apply Z.leb_le in Hlo, Hhi.
        now split.
      * unfold bind at 1. unfold print at 1. cbv beta iota.
        destruct (IH (World (fs w) (cwd w) rest
                        ((stdout w ++ [str "Select the desired run by typing the corresponding number:"])
                         ++ [(str "Out of bounds. Please enter a number between 1 and "
                                ++ str_of_Z (Z.of_nat (List.length runs)) ++ str ".") ++ [LF]]))
                    eq_refl) as (w' & Hrun & Hstd & Hfs & Hcwd).
        exists w'. now repeat split.
    + rewrite (Hint_raises _ _ Hint). unfold bind at 1. unfold print at 1. cbv beta iota.
      destruct (IH (World (fs w) (cwd w) rest
                      ((stdout w ++ [str "Select the desired run by typing the corresponding number:"])
                       ++ [str "Invalid input. Please enter a number." ++ [LF]]))
                  eq_refl) as (w' & Hrun & Hstd & Hfs & Hcwd).
      exists w'. now repeat split.
Qed.

Lemma choose_run_exhausts_input_witness :
  exists w',
    choose_run [str "Results_Jan01"; str "Results_Feb02"]
      (Scenario.typing [str "x"; str "5"; str "0"])
    = (w', Raise EOFError)
    /\ stdin w' = []
    /\ fs w' = fs (Scenario.typing [str "x"; str "5"; str "0"])
    /\ cwd w' = cwd (Scenario.typing [str "x"; str "5"; str "0"]).
Proof.
  apply (@choose_run_exhausts_input py_int).
  - exact py_int_text_raises_value_error.
  - apply Forall_cons; [|apply Forall_cons; [|apply Forall_cons; [|apply Forall_nil]]];
      intros (choice & Hint & Hb); vm_compute in Hint;
      try discriminate; injection Hint as <-; simpl in Hb; lia.
Defined.

(** *** The copy loop *)

(** X11.  With [current_directory] a text: when, for every label of
    the list, the path looked up for it (the folder
    [Orthogroup_Sequences], then the label, then [.fa], joined to
    [current_directory]) does not exist, the loop raises nothing,
    copies nothing and leaves the count as it was, and prints for each
    label, in the order of the list, the one line
    [File <label>.fa not found.] and nothing else. *)
Theorem copy_loop_reports_missing_files (dir filtered_ogs : pystr) (og_names : list pystr)
    (og_count : Z) : forall w : world,
  Forall (fun label =>
            forall path,
              os_path_join (PStr dir)
                [PStr (str "Orthogroup_Sequences"); PStr label; PStr (str ".fa")] = Ok path ->
              lookup (fs w) (abspath w path) = None) og_names ->
  copy_orthologs (PStr dir) filtered_ogs og_names og_count w
  = (World (fs w) (cwd w) (stdin w)
       (stdout w
        ++ map (fun label => (str "File " ++ label ++ str ".fa not found.") ++ [LF]) og_names),
     Ok og_count).
Proof.
  induction og_names as [|label rest IH]; intros w Hmissing.
  - simpl. unfold ret. rewrite app_nil_r. now destruct w.
  - inversion_clear Hmissing as [|? ? Hlabel Hrest].
    cbn [copy_orthologs]. rewrite bind_lift.
    destruct (os_path_join (PStr dir) _) as [path|e] eqn:Hpath; [|discriminate].
    unfold bind at 1. unfold os_path_exists at 1. cbv beta iota.
    rewrite (Hlabel _ eq_refl). cbv iota.
    unfold bind at 1. unfold print at 1. cbv beta iota.
    rewrite IH by exact Hrest.
    cbn [fs cwd stdin stdout map]. now rewrite <- app_assoc.
Qed.

Lemma copy_loop_reports_missing_files_witness :
  copy_orthologs (PStr Scenario.run_dir)
    (str "/data/OrthoFinder/Results_Jan01/Filtered_Orthologs")
    [str "OG1"; str "OG7"] 0 (Scenario.in_run Scenario.table_A)
  = (World (fs (Scenario.in_run Scenario.table_A)) (cwd (Scenario.in_run Scenario.table_A))
       (stdin (Scenario.in_run Scenario.table_A))
       (stdout (Scenario.in_run Scenario.table_A)
        ++ map (fun label => (str "File " ++ label ++ str ".fa not found.") ++ [LF])
             [str "OG1"; str "OG7"]),
     Ok 0).
Proof.
  apply copy_loop_reports_missing_files.
  apply Forall_cons; [|apply Forall_cons; [|apply Forall_nil]];
    intros path H; vm_compute in H; injection H as <-; vm_compute; reflexivity.
Defined.

(** *** Tables without data *)

(** X12.  A table file that is empty or holds a single line, the
    header, gives the loops nothing to do: whatever the thresholds, as
    soon as the table can be read and the list file opened, the
    Selector completes, leaves an empty list file and prints its
    message. *)
Theorem table_without_data_completes (self : Table2Folder) (w w1 w2 : world)
    (ortologs : list pystr) (file : pystr) :
  read_table w = (w1, Ok ortologs) ->
  (List.length ortologs <= 1)%nat ->
  open_list_file w1 = (w2, Ok file) ->
  OFolder2List self w
  = (World (fs w2) (cwd w2) (stdin w2)
       (stdout w2 ++ [str "Orthologs succesfully retrieved. Copying to a new folder..." ++ [LF]]),
     Ok tt)
  /\ list_file_empty w2.
Proof.
  intros Hread Hlen Hopen.
  assert (Hsel : select_rows self ortologs = Ok []).
  { destruct ortologs as [|header_line [|line rest]]; try reflexivity.
    simpl in Hlen. lia. }
  split.
  - rewrite OFolder2List_steps, Hread, Hsel, Hopen. reflexivity.
  - pose proof (open_list_file_cases w1) as H. rewrite Hopen in H. apply H.
Qed.

Lemma table_without_data_completes_witness :
  snd (OFolder2List (Scenario.job (1 # 2) 2) (Scenario.in_run [])) = Ok tt.
Proof.
  pose (w := Scenario.in_run []).
  assert (Hread : read_table w = (fst (read_table w), Ok [])) by (vm_compute; reflexivity).
  assert (Hopen : open_list_file (fst (read_table w))
                  = (fst (open_list_file (fst (read_table w))), Ok Scenario.list_path))
    by (vm_compute; reflexivity).
  assert (Hlen : (List.length (@nil pystr) <= 1)%nat) by (simpl; lia).
  destruct (@table_without_data_completes (Scenario.job (1 # 2) 2) w _ _ _ _
              Hread Hlen Hopen) as [Hrun _].
  fold w. rewrite Hrun. reflexivity.
Defined.
